(** * Omvyx Voice: the Retell webhook handler of [main.py]

    A shallow embedding of the two FastAPI endpoints of [main.py]
    ([health] and [retell_webhook]) and the proofs of the properties the
    specification states about them.

    - Python values decoded by [request.json()] are the type [json]; a
      Python [dict] is a [gmap string json].
    - The handler is a tree of effects ([handler]): it returns, raises,
      writes a log line, or awaits [graph.ainvoke].  The conversation graph
      is not part of [main.py]; it only appears as the [Ainvoke] node and,
      when a tree is executed by [run], as a function on an engine state.
    - [SYSTEM_PROMPT], imported from [graph.workflow], is a section
      variable.
    - A [str] is represented by its UTF-8 encoding, so that slicing and
      iteration go by code point; a [str] without one (a lone surrogate
      escaped in the JSON text) is not represented.
    - The library constructors [JSONResponse] and [HumanMessage] are
      modelled with the one check each of them performs on its argument
      when it is built. *)

From Stdlib Require Import ZArith String Ascii List Floats.
From stdpp Require Import base option gmap strings list fin_maps.

(** ** Python values *)

(** What [json.loads] produces: [None], [bool], [int], [float], [str],
    [list] and [dict] with [str] keys. *)
#[warnings="-register-all"]
Inductive json : Type :=
| JNull
| JBool (b : bool)
| JInt (n : Z)
| JFloat (x : PrimFloat.float)
| JStr (s : string)
| JList (items : list json)
| JObj (fields : gmap string json).

(** Python truth value, as tested by [if not user_text]. *)
Definition truthy (v : json) : bool :=
  match v with
  | JNull => false
  | JBool b => b
  | JInt n => negb (n =? 0)%Z
  | JFloat x => negb (PrimFloat.eqb x PrimFloat.zero)
  | JStr s => negb (bool_decide (s = ""))
  | JList items => negb (bool_decide (items = []))
  | JObj fields => negb (bool_decide (fields = ∅))
  end.

(** [v == s] for a [str] literal [s]: only an equal [str] compares equal. *)
Definition eq_str (v : json) (s : string) : bool :=
  match v with
  | JStr t => bool_decide (t = s)
  | _ => false
  end.

(** [v in (s1, s2, ...)] for a tuple of [str] literals. *)
Definition in_strs (v : json) (literals : list string) : bool :=
  existsb (eq_str v) literals.

(** A float that is neither NaN nor an infinity. *)
Definition finite (x : PrimFloat.float) : bool :=
  negb (PrimFloat.is_nan x || PrimFloat.is_infinity x).

(** What [json.dumps(v, allow_nan=False)] accepts of a decoded value:
    every float in it is finite. *)
Fixpoint json_compliant (v : json) : bool :=
  match v with
  | JFloat x => finite x
  | JList items => forallb json_compliant items
  | JObj fields =>
      map_fold (λ _ item ok, json_compliant item && ok) true fields
  | _ => true
  end.

(** The content a message class accepts: text, or a list of blocks that
    are text or dicts. *)
Definition message_content (c : json) : bool :=
  match c with
  | JStr _ => true
  | JList blocks =>
      forallb (λ b, match b with JStr _ | JObj _ => true | _ => false end) blocks
  | _ => false
  end.

(** ** UTF-8 strings by code point *)

(** A byte [10xxxxxx] continues the code point begun before it. *)
Definition continuation_byte (c : ascii) : bool :=
  match c with
  | Ascii _ _ _ _ _ _ b6 b7 => b7 && negb b6
  end.

(** [len(s)]: the number of code points. *)
Fixpoint code_points (s : string) : nat :=
  match s with
  | EmptyString => 0
  | String c rest =>
      if continuation_byte c then code_points rest else S (code_points rest)
  end.

(** [s[:n]]: the first [n] code points. *)
Fixpoint utf8_take (n : nat) (s : string) : string :=
  match s with
  | EmptyString => EmptyString
  | String c rest =>
      if continuation_byte c then String c (utf8_take n rest)
      else match n with
           | 0 => EmptyString
           | S n' => String c (utf8_take n' rest)
           end
  end.

(** The one-character strings [s] iterates over. *)
Fixpoint utf8_chars (s : string) : list string :=
  match s with
  | EmptyString => []
  | String c rest =>
      let tail := utf8_chars rest in
      match rest, tail with
      | String c' _, char :: chars =>
          if continuation_byte c' then String c char :: chars
          else String c EmptyString :: tail
      | _, _ => String c EmptyString :: tail
      end
  end.

(** ** Messages and graph state *)

(** An element of the graph's message list, seen through the two
    attributes the handler reads.  [content = None] is an object on which
    [hasattr(msg, "content")] is false. *)
Record message : Type := Message {
  content : option json;
  type : option string
}.

(** A human message with the given content. *)
Definition human_message (text : json) : message :=
  {| content := Some text; type := Some "human" |}.

(** The dict given to and returned by [graph.ainvoke]. *)
Record state : Type := State {
  messages : option (list message);
  call_id : option json
}.

(** [{"configurable": {"thread_id": ...}}] *)
Record config : Type := Config { thread_id : json }.

(** ** Effects *)

Inductive exception : Type :=
| AttributeError (attr : string)
| TypeError (what : string)
| ValueError (what : string)
| ValidationError (what : string)
| EngineError (info : string).

Inductive handler (A : Type) : Type :=
| Return (a : A)
| Raise (e : exception)
| LogInfo (fmt : string) (args : list json) (k : handler A)
| Ainvoke (input : state) (cfg : config) (k : state → handler A).
Arguments Return {A} a.
Arguments Raise {A} e.
Arguments LogInfo {A} fmt args k.
Arguments Ainvoke {A} input cfg k.

Fixpoint handler_bind {A B} (f : A → handler B) (p : handler A) : handler B :=
  match p with
  | Return a => f a
  | Raise e => Raise e
  | LogInfo fmt args k => LogInfo fmt args (handler_bind f k)
  | Ainvoke input cfg k => Ainvoke input cfg (λ r, handler_bind f (k r))
  end.

#[global] Instance handler_ret : MRet handler := @Return.
#[global] Instance handler_mbind : MBind handler := @handler_bind.

Definition logger_info (fmt : string) (args : list json) : handler unit :=
  LogInfo fmt args (Return tt).

Definition graph_ainvoke (input : state) (cfg : config) : handler state :=
  Ainvoke input cfg Return.

(** ** Python operations used by the handler *)

(** [obj.get(key, dflt)]: only a [dict] has the method. *)
Definition py_get (obj : json) (key : string) (dflt : json) : handler json :=
  match obj with
  | JObj fields => Return (default dflt (fields !! key))
  | _ => Raise (AttributeError "get")
  end.

Definition chars (s : string) : list json := JStr <$> utf8_chars s.

(** [reversed(obj)], as the list it iterates over.  A [str] yields its
    characters and a [dict] its keys; numbers, booleans and [None] are not
    reversible.  (The keys of a [gmap] come in the map's own order, not in
    insertion order.) *)
Definition reversed (obj : json) : handler (list json) :=
  match obj with
  | JList items => Return (rev items)
  | JStr s => Return (rev (chars s))
  | JObj fields => Return (rev (JStr <$> (map_to_list fields).*1))
  | _ => Raise (TypeError "argument to reversed() must be a sequence")
  end.

(** [obj[:n]].  A [dict] has no slices either; the exception it raises is
    [TypeError] before Python 3.12, which is what the model takes. *)
Definition py_slice_to (n : nat) (obj : json) : handler json :=
  match obj with
  | JStr s => Return (JStr (utf8_take n s))
  | JList items => Return (JList (take n items))
  | _ => Raise (TypeError "object is not sliceable")
  end.

(** ** The endpoints *)

(** [HumanMessage(content=c)]: the class validates its content when the
    message is built. *)
Definition HumanMessage (c : json) : handler message :=
  if message_content c then Return (human_message c)
  else Raise (ValidationError "content: str or list of str and dict expected").

(** A response object, by the content it was rendered from. *)
Record response : Type := Response { body_of : gmap string json }.

(** [JSONResponse(content)]: the body is rendered when the response is
    built, with [allow_nan=False]. *)
Definition JSONResponse (content : gmap string json) : handler response :=
  if json_compliant (JObj content) then Return (Response content)
  else Raise (ValueError "Out of range float values are not JSON compliant").

Definition health : handler (gmap string json) :=
  Return {[ "status" := JStr "ok" ]}.

(** The first loop of [retell_webhook], over [reversed(transcript)]:
    [user_text] starts as [""] and the first turn whose role is ["user"]
    sets it and breaks. *)
Fixpoint scan_user_text (turns : list json) : handler json :=
  match turns with
  | [] => Return (JStr "")
  | turn :: rest =>
      role ← py_get turn "role" JNull;
      if eq_str role "user" then py_get turn "content" (JStr "")
      else scan_user_text rest
  end.

(** The second loop, over [reversed(result.get("messages", []))]. *)
Fixpoint scan_agent_reply (msgs : list message) : handler json :=
  match msgs with
  | [] => Return (JStr "")
  | msg :: rest =>
      match content msg with
      | None => scan_agent_reply rest
      | Some c =>
          match type msg with
          | None => Raise (AttributeError "type")
          | Some t =>
              if bool_decide (t = "ai") then Return c
              else scan_agent_reply rest
          end
      end
  end.

(** The two log formats of [retell_webhook]. *)
Definition fmt_received : string := "Webhook received — call_id=%s  event=%s".
Definition fmt_responding : string := "Responding — call_id=%s  reply=%s".

(** Lines 83-92: the last user utterance of the transcript, or the
    greeting when that text is falsy. *)
Definition extract_user_text (transcript : json) : handler json :=
  turns ← reversed transcript;
  user_text ← scan_user_text turns;
  Return (if truthy user_text then user_text else JStr "Hola").

(** Lines 103-118: what the handler does with the engine's [result]. *)
Definition respond (call_id : json) (result : state) : handler response :=
  agent_reply ← scan_agent_reply (rev (default [] (messages result)));
  shown ← py_slice_to 80 agent_reply;
  logger_info fmt_responding [call_id; shown];;
  JSONResponse {[ "response_id" := call_id;
                  "content" := agent_reply;
                  "content_complete" := JBool true;
                  "end_call" := JBool false ]}.

Section Webhook.

(** [from graph.workflow import SYSTEM_PROMPT] *)
Variable SYSTEM_PROMPT : message.

(** Lines 95-99: the [config] of the invocation, and its [input_state]
    for a user text the message class accepts. *)
Definition config_for (call_id : json) : config :=
  {| thread_id := call_id |}.

Definition input_state_for (call_id user_text : json) : state :=
  {| messages := Some [SYSTEM_PROMPT; human_message user_text];
     call_id := Some call_id |}.

Definition retell_webhook (body : json) : handler response :=
  call_id ← py_get body "call_id" (JStr "unknown");
  event ← py_get body "event" (JStr "");
  logger_info fmt_received [call_id; event];;
  if in_strs event ["call_ended"; "call_analyzed"] then
    JSONResponse {[ "response_id" := call_id; "content" := JStr "" ]}
  else
    transcript ← py_get body "transcript" (JList []);
    user_text ← extract_user_text transcript;
    let config := config_for call_id in
    human ← HumanMessage user_text;
    let input_state :=
      {| messages := Some [SYSTEM_PROMPT; human]; call_id := Some call_id |} in
    result ← graph_ainvoke input_state config;
    respond call_id result.

End Webhook.

(** ** Running a handler against an engine *)

Inductive effect : Type :=
| Logged (fmt : string) (args : list json)
| Invoked (input : state) (cfg : config).

Section Run.

(** The engine: a state [G] (its checkpoints) and what [ainvoke] does
    with it, an exception or a result. *)
Context {G : Type}.
Variable ainvoke : G → state → config → G * (exception + state).

Fixpoint run {A} (p : handler A) (g : G) : G * list effect * (exception + A) :=
  match p with
  | Return a => (g, [], inr a)
  | Raise e => (g, [], inl e)
  | LogInfo fmt args k =>
      let '(g', evs, out) := run k g in (g', Logged fmt args :: evs, out)
  | Ainvoke input cfg k =>
      match ainvoke g input cfg with
      | (g', inl e) => (g', [Invoked input cfg], inl e)
      | (g', inr result) =>
          let '(g'', evs, out) := run (k result) g' in
          (g'', Invoked input cfg :: evs, out)
      end
  end.

End Run.

(** The invocations of the engine recorded in a trace. *)
Fixpoint invocations (evs : list effect) : list (state * config) :=
  match evs with
  | [] => []
  | Logged _ _ :: rest => invocations rest
  | Invoked input cfg :: rest => (input, cfg) :: invocations rest
  end.

(** ** Vocabulary of the statements *)

(** [call_id], [event] and [transcript] as the handler parses them from a
    body that is a JSON object. *)
Definition call_id_of (fields : gmap string json) : json :=
  default (JStr "unknown") (fields !! "call_id").
Definition event_of (fields : gmap string json) : json :=
  default (JStr "") (fields !! "event").
Definition transcript_of (fields : gmap string json) : json :=
  default (JList []) (fields !! "transcript").

(** The two lifecycle events the handler does not answer. *)
Definition terminal_event (ev : json) : Prop :=
  ev = JStr "call_ended" ∨ ev = JStr "call_analyzed".

(** A transcript entry that is a dict whose role is not ["user"]. *)
Definition other_turn (turn : json) : Prop :=
  ∃ d, turn = JObj d ∧ d !! "role" ≠ Some (JStr "user").

(** The two response shapes. *)
Definition lifecycle_response (call_id : json) : gmap string json :=
  {[ "response_id" := call_id; "content" := JStr "" ]}.
Definition turn_response (call_id agent_reply : json) : gmap string json :=
  {[ "response_id" := call_id;
     "content" := agent_reply;
     "content_complete" := JBool true;
     "end_call" := JBool false ]}.

(** The active path of [retell_webhook] once the call identifier and the
    transcript are parsed (lines 84-118). *)
Definition active_turn (SYSTEM_PROMPT : message) (call_id transcript : json)
    : handler response :=
  user_text ← extract_user_text transcript;
  human ← HumanMessage user_text;
  Ainvoke {| messages := Some [SYSTEM_PROMPT; human]; call_id := Some call_id |}
          (config_for call_id) (respond call_id).

(** The engine invocations of a handler run from engine state [g]. *)
Definition engine_calls {G A} (ainvoke : G → state → config → G * (exception + state))
    (p : handler A) (g : G) : list (state * config) :=
  invocations (run ainvoke p g).1.2.

(** A transcript in the documented payload shape: a list of dicts whose
    content, when present, is text. *)
Definition text_turn (turn : json) : Prop :=
  ∃ d, turn = JObj d ∧ (d !! "content" = None ∨ ∃ s, d !! "content" = Some (JStr s)).
Definition text_transcript (transcript : json) : Prop :=
  ∃ turns, transcript = JList turns ∧ Forall text_turn turns.

(** A message the second loop passes over: its type tag is not ["ai"],
    and the tag can be read whenever the message has content. *)
Definition not_ai (msg : message) : Prop :=
  type msg ≠ Some "ai" ∧ (is_Some (content msg) → is_Some (type msg)).

(** The reply in the words of the specification: the content of the last
    message tagged ["ai"], the empty string when there is none. *)
Definition last_ai_content (msgs : list message) (reply : json) : Prop :=
  (∃ pre msg post,
      msgs = pre ++ msg :: post
      ∧ type msg = Some "ai" ∧ content msg = Some reply ∧ Forall not_ai post)
  ∨ (Forall not_ai msgs ∧ reply = JStr "").

(** Message content as the message classes declare it: text or a list of
    content blocks. *)
Definition text_or_blocks (c : json) : Prop :=
  (∃ s, c = JStr s) ∨ (∃ blocks, c = JList blocks).

(** The defaults of the three parsed fields. *)
Definition defaults : gmap string json :=
  {[ "call_id" := JStr "unknown"; "event" := JStr ""; "transcript" := JList [] ]}.

(** A body with its [event] field set to a value, or removed. *)
Definition with_event (ev : option json) (fields : gmap string json)
    : gmap string json :=
  match ev with
  | Some v => <["event" := v]> fields
  | None => delete "event" fields
  end.

(** ** Concrete requests and a concrete engine

    The scenarios of the specification, used to instantiate the
    theorems. *)

Definition example_prompt : message :=
  {| content := Some (JStr "You are the Omvyx voice agent.");
     type := Some "system" |}.

Definition turn_of (role text : string) : json :=
  JObj {[ "role" := JStr role; "content" := JStr text ]}.

Definition ai_message (text : string) : message :=
  {| content := Some (JStr text); type := Some "ai" |}.

(** [{"call_id": "abc", "event": "call_ended", "transcript": [...]}] *)
Definition ended_fields : gmap string json :=
  {[ "call_id" := JStr "abc";
     "event" := JStr "call_ended";
     "transcript" := JList [turn_of "agent" "Hola"; turn_of "user" "Adios"] ]}.

(** [{"call_id": "abc", "event": "call_started", "transcript": []}] *)
Definition started_fields : gmap string json :=
  {[ "call_id" := JStr "abc";
     "event" := JStr "call_started";
     "transcript" := JList [] ]}.

(** A call in progress: the caller has just asked for an appointment. *)
Definition booking_fields : gmap string json :=
  {[ "call_id" := JStr "abc";
     "event" := JStr "call_started";
     "transcript" := JList [turn_of "user" "Buenas tardes";
                            turn_of "agent" "Hola, en que puedo ayudarle?";
                            turn_of "user" "Quiero una cita";
                            turn_of "agent" "Claro" ] ]}.

(** The same call when the last user turn was transcribed as empty. *)
Definition silent_fields : gmap string json :=
  {[ "call_id" := JStr "abc";
     "event" := JStr "call_started";
     "transcript" := JList [turn_of "user" "Quiero una cita";
                            turn_of "user" "";
                            turn_of "agent" "Sigue ahi?" ] ]}.

(** A body without any of the three fields. *)
Definition bare_fields : gmap string json :=
  {[ "from_number" := JStr "+34600000000" ]}.

(** A body whose call identifier is the text ["unknown"]. *)
Definition unknown_fields : gmap string json :=
  {[ "call_id" := JStr "unknown"; "event" := JStr "call_ended" ]}.

(** An engine result: two AI messages followed by a tool message. *)
Definition example_result : state :=
  {| messages := Some [example_prompt;
                       human_message (JStr "Quiero una cita");
                       ai_message "Un momento";
                       ai_message "Para que dia?";
                       {| content := Some (JStr "{}"); type := Some "tool" |}];
     call_id := Some (JStr "abc") |}.

(** An engine that counts its invocations and answers every input with
    the input's messages followed by one AI message. *)
Definition counting_engine (g : nat) (input : state) (cfg : config)
    : nat * (exception + state) :=
  (S g,
   inr {| messages := Some (default [] (messages input) ++ [ai_message "Buenos dias"]);
          call_id := call_id input |}).

(** ** Further vocabulary: malformed values and a failing engine *)

(** [None], a boolean or a number: a value that is neither reversible
    nor sliceable. *)
Definition scalar (v : json) : Prop :=
  v = JNull ∨ (∃ b, v = JBool b) ∨ (∃ n, v = JInt n) ∨ (∃ x, v = JFloat x).

(** An engine whose every invocation raises; it still counts them. *)
Definition failing_engine (g : nat) (input : state) (cfg : config)
    : nat * (exception + state) :=
  (S g, inl (EngineError "graph execution failed")).

(** The first request of a call with a field the handler does not read. *)
Definition annotated_fields : gmap string json :=
  <["from_number" := JStr "+34600000000"]> started_fields.

(** A transcript sent as [null]. *)
Definition null_transcript_fields : gmap string json :=
  {[ "call_id" := JStr "abc"; "event" := JStr "call_started";
     "transcript" := JNull ]}.

(** A transcript with a bare string after the last user turn. *)
Definition stray_fields : gmap string json :=
  {[ "call_id" := JStr "abc"; "event" := JStr "call_started";
     "transcript" := JList [turn_of "user" "Quiero una cita";
                            JStr "noise";
                            turn_of "agent" "Claro"] ]}.

(** A last user turn whose content is [null]. *)
Definition null_content_fields : gmap string json :=
  {[ "call_id" := JStr "abc"; "event" := JStr "call_started";
     "transcript" := JList [turn_of "user" "Quiero una cita";
                            JObj {[ "role" := JStr "user"; "content" := JNull ]}] ]}.

(** An engine result whose reply is longer than a log line shows. *)
Definition long_reply : string :=
  "Perfecto, le confirmo su cita para el próximo miércoles a las diez de la mañana en nuestra oficina.".

Definition long_reply_result : state :=
  {| messages := Some [example_prompt; ai_message long_reply];
     call_id := Some (JStr "abc") |}.

(** A lifecycle event whose call identifier was sent as [1e400], which
    decodes to an infinity. *)
Definition overflow_fields : gmap string json :=
  {[ "call_id" := JFloat PrimFloat.infinity; "event" := JStr "call_ended" ]}.

(** A last user turn whose content is a number. *)
Definition numeric_content_fields : gmap string json :=
  {[ "call_id" := JStr "abc"; "event" := JStr "call_started";
     "transcript" := JList [JObj {[ "role" := JStr "user"; "content" := JInt 5 ]}] ]}.

(** An engine result whose last AI message has [None] as content. *)
Definition null_reply_result : state :=
  {| messages := Some [example_prompt;
                       {| content := Some JNull; type := Some "ai" |}];
     call_id := Some (JStr "abc") |}.

(** A computation without effects: it returns or raises at once.  The
    Python helpers and the two loops are of this kind. *)
Inductive pure {A} : handler A → Prop :=
| pure_Return a : pure (Return a)
| pure_Raise e : pure (Raise e).

(** ** Equations of the effect monad *)

Lemma bind_Return {A B} (a : A) (f : A → handler B) : Return a ≫= f = f a.
Proof. reflexivity. Qed.

Lemma bind_Raise {A B} (e : exception) (f : A → handler B) :
  Raise e ≫= f = Raise e.
Proof. reflexivity. Qed.

Lemma bind_LogInfo {A B} fmt args (k : handler A) (f : A → handler B) :
  LogInfo fmt args k ≫= f = LogInfo fmt args (k ≫= f).
Proof. reflexivity. Qed.

#[local] Hint Constructors pure : core.

Lemma pure_cases {A} (p : handler A) :
  pure p → (∃ a, p = Return a) ∨ (∃ e, p = Raise e).
Proof. intros [a|e]; eauto. Qed.

Lemma pure_bind {A B} (p : handler A) (f : A → handler B) :
  pure p → (∀ a, pure (f a)) → pure (p ≫= f).
Proof. intros [a|e] Hf; [apply Hf | constructor]. Qed.

Lemma py_get_pure obj key dflt : pure (py_get obj key dflt).
Proof. destruct obj; constructor. Qed.

Lemma reversed_pure obj : pure (reversed obj).
Proof. destruct obj; constructor. Qed.

Lemma py_slice_to_pure n obj : pure (py_slice_to n obj).
Proof. destruct obj; constructor. Qed.

Lemma HumanMessage_pure c : pure (HumanMessage c).
Proof. unfold HumanMessage. destruct (message_content c); constructor. Qed.

Lemma JSONResponse_pure content : pure (JSONResponse content).
Proof. unfold JSONResponse. destruct (json_compliant _); constructor. Qed.

Lemma scan_user_text_pure turns : pure (scan_user_text turns).
Proof.
  induction turns as [|turn rest IH]; [constructor|].
  cbn [scan_user_text]. apply pure_bind; [apply py_get_pure|].
  intros role. destruct (eq_str role "user"); [apply py_get_pure | exact IH].
Qed.

Lemma scan_agent_reply_pure msgs : pure (scan_agent_reply msgs).
Proof.
  induction msgs as [|msg rest IH]; [constructor|].
  cbn [scan_agent_reply].
  destruct (content msg); [|exact IH].
  destruct (type msg); [|constructor].
  case_bool_decide; [constructor | exact IH].
Qed.

Lemma extract_user_text_pure transcript : pure (extract_user_text transcript).
Proof.
  unfold extract_user_text. apply pure_bind; [apply reversed_pure|].
  intros turns. apply pure_bind; [apply scan_user_text_pure|].
  intros text. constructor.
Qed.

(** ** Rendering *)

Lemma json_compliant_obj (m : gmap string json) :
  json_compliant (JObj m) = true
  ↔ map_Forall (λ _ v, json_compliant v = true) m.
Proof.
  cbn [json_compliant].
  induction m as [|k v m Hk Hfold IH] using map_first_key_ind.
  - rewrite map_fold_empty. split; [intros _; apply map_Forall_empty | done].
  - rewrite map_fold_insert_first_key by done.
    rewrite andb_true_iff, IH, map_Forall_insert by done. tauto.
Qed.

Lemma lifecycle_response_compliant cid :
  json_compliant (JObj (lifecycle_response cid)) = json_compliant cid.
Proof.
  apply eq_true_iff_eq. rewrite json_compliant_obj. unfold lifecycle_response.
  rewrite map_Forall_insert by reflexivity. rewrite map_Forall_singleton.
  cbn [json_compliant]. tauto.
Qed.

Lemma turn_response_compliant cid reply :
  json_compliant (JObj (turn_response cid reply))
  = json_compliant cid && json_compliant reply.
Proof.
  apply eq_true_iff_eq. rewrite json_compliant_obj, andb_true_iff.
  unfold turn_response.
  rewrite !map_Forall_insert by reflexivity. rewrite map_Forall_singleton.
  cbn [json_compliant]. tauto.
Qed.

Lemma JSONResponse_lifecycle cid :
  json_compliant cid = true →
  JSONResponse (lifecycle_response cid) = Return (Response (lifecycle_response cid)).
Proof.
  intros H. unfold JSONResponse. by rewrite lifecycle_response_compliant, H.
Qed.

Lemma JSONResponse_turn cid reply :
  json_compliant cid = true →
  json_compliant reply = true →
  JSONResponse (turn_response cid reply) = Return (Response (turn_response cid reply)).
Proof.
  intros H1 H2. unfold JSONResponse.
  by rewrite turn_response_compliant, H1, H2.
Qed.

(** ** The event test *)

Lemma in_strs_terminal ev :
  in_strs ev ["call_ended"; "call_analyzed"] = true ↔ terminal_event ev.
Proof.
  unfold in_strs, terminal_event. cbn [existsb].
  rewrite !orb_true_iff. unfold eq_str.
  destruct ev; try (split; [intros [?|[?|?]]; discriminate | intros [?|?]; discriminate]).
  rewrite !bool_decide_eq_true. split.
  - intros [->|[->|?]]; [by left | by right | discriminate].
  - intros [[= ->]|[= ->]]; [by left | right; by left].
Qed.

Lemma in_strs_active ev :
  ¬ terminal_event ev → in_strs ev ["call_ended"; "call_analyzed"] = false.
Proof.
  intros H. apply not_true_is_false. by rewrite in_strs_terminal.
Qed.

Lemma terminal_event_dec ev : terminal_event ev ∨ ¬ terminal_event ev.
Proof.
  destruct (in_strs ev ["call_ended"; "call_analyzed"]) eqn:E.
  - left. by apply in_strs_terminal.
  - right. intros H%in_strs_terminal. congruence.
Qed.

(** ** The two paths of [retell_webhook] *)

(** The handler reads its body through the three parsed fields only. *)
Lemma retell_webhook_fields SP (m : gmap string json) :
  retell_webhook SP (JObj m)
  = LogInfo fmt_received [call_id_of m; event_of m]
      (if in_strs (event_of m) ["call_ended"; "call_analyzed"]
       then JSONResponse (lifecycle_response (call_id_of m))
       else active_turn SP (call_id_of m) (transcript_of m)).
Proof.
  unfold retell_webhook, py_get. rewrite !bind_Return.
  unfold logger_info. rewrite bind_LogInfo, bind_Return.
  fold (event_of m) (call_id_of m).
  destruct (in_strs (event_of m) _); reflexivity.
Qed.

Lemma retell_webhook_lifecycle SP (m : gmap string json) :
  terminal_event (event_of m) →
  retell_webhook SP (JObj m)
  = LogInfo fmt_received [call_id_of m; event_of m]
      (JSONResponse (lifecycle_response (call_id_of m))).
Proof.
  intros H%in_strs_terminal. by rewrite retell_webhook_fields, H.
Qed.

Lemma retell_webhook_terminal SP (m : gmap string json) :
  terminal_event (event_of m) →
  json_compliant (call_id_of m) = true →
  retell_webhook SP (JObj m)
  = LogInfo fmt_received [call_id_of m; event_of m]
      (Return (Response (lifecycle_response (call_id_of m)))).
Proof.
  intros Hev Hid. rewrite retell_webhook_lifecycle by done.
  by rewrite JSONResponse_lifecycle.
Qed.

(** A body that is not a JSON object has no [get]: the handler raises
    before it logs anything. *)
Lemma retell_webhook_not_object SP body :
  (∀ fields, body ≠ JObj fields) →
  retell_webhook SP body = Raise (AttributeError "get").
Proof. intros H. destruct body; try reflexivity. by destruct (H fields). Qed.

Lemma retell_webhook_active SP (m : gmap string json) :
  ¬ terminal_event (event_of m) →
  retell_webhook SP (JObj m)
  = LogInfo fmt_received [call_id_of m; event_of m]
      (active_turn SP (call_id_of m) (transcript_of m)).
Proof.
  intros H%in_strs_active. by rewrite retell_webhook_fields, H.
Qed.

(** The active path for a user text the message class accepts. *)
Lemma active_turn_invokes SP cid transcript text :
  extract_user_text transcript = Return text →
  message_content text = true →
  active_turn SP cid transcript
  = Ainvoke (input_state_for SP cid text) (config_for cid) (respond cid).
Proof.
  intros Htext Hvalid. unfold active_turn, HumanMessage.
  by rewrite Htext, bind_Return, Hvalid.
Qed.

Lemma retell_webhook_invokes SP (m : gmap string json) text :
  ¬ terminal_event (event_of m) →
  extract_user_text (transcript_of m) = Return text →
  message_content text = true →
  retell_webhook SP (JObj m)
  = LogInfo fmt_received [call_id_of m; event_of m]
      (Ainvoke (input_state_for SP (call_id_of m) text)
               (config_for (call_id_of m)) (respond (call_id_of m))).
Proof.
  intros Hev Htext Hvalid. rewrite retell_webhook_active by done.
  by rewrite (active_turn_invokes SP _ _ text).
Qed.

(** ** Running the lifecycle path *)

Section RunLemmas.

Context {G : Type}.
Variable ainvoke : G → state → config → G * (exception + state).

Lemma run_lifecycle SP (m : gmap string json) g :
  terminal_event (event_of m) →
  ∃ out,
    run ainvoke (retell_webhook SP (JObj m)) g
    = (g, [Logged fmt_received [call_id_of m; event_of m]], out).
Proof.
  intros H. rewrite retell_webhook_lifecycle by done.
  destruct (pure_cases _ (JSONResponse_pure (lifecycle_response (call_id_of m))))
    as [[resp ->]|[e ->]]; eexists; reflexivity.
Qed.

Lemma run_terminal SP (m : gmap string json) g :
  terminal_event (event_of m) →
  json_compliant (call_id_of m) = true →
  run ainvoke (retell_webhook SP (JObj m)) g
  = (g, [Logged fmt_received [call_id_of m; event_of m]],
     inr (Response (lifecycle_response (call_id_of m)))).
Proof. intros Hev Hid. by rewrite retell_webhook_terminal. Qed.

(** A lifecycle event that is answered is answered with the two-key
    response. *)
Lemma run_terminal_inv SP (m : gmap string json) g g' evs resp :
  terminal_event (event_of m) →
  run ainvoke (retell_webhook SP (JObj m)) g = (g', evs, inr resp) →
  resp = Response (lifecycle_response (call_id_of m)).
Proof.
  intros Hev. rewrite retell_webhook_lifecycle by done. unfold JSONResponse.
  destruct (json_compliant _); cbn [run]; [|discriminate].
  by intros [= _ _ <-].
Qed.

End RunLemmas.

(** ** Health *)

(** C10: [GET /health] returns the constant body [{"status": "ok"}]; it
    reads no state, leaves the engine untouched, writes nothing and cannot
    raise. *)
Theorem health_constant :
  health = Return {[ "status" := JStr "ok" ]}
  ∧ ∀ G (ainvoke : G → state → config → G * (exception + state)) (g : G),
      run ainvoke health g = (g, [], inr {[ "status" := JStr "ok" ]}).
Proof. split; [reflexivity | intros; reflexivity]. Qed.

(** ** Lifecycle events *)

(** C1: when the [event] field is ["call_ended"] or ["call_analyzed"],
    whatever the engine, it is not invoked and its state is unchanged; and
    for a call identifier that can be rendered as JSON, as every text can,
    the handler logs the receipt and returns the two-key response
    [{response_id: call_id, content: ""}], which has no [content_complete]
    and no [end_call] key. *)
Theorem lifecycle_event_short_circuits SP (m : gmap string json) (ev : json) :
  m !! "event" = Some ev →
  terminal_event ev →
  (∀ G (ainvoke : G → state → config → G * (exception + state)) (g : G),
     engine_calls ainvoke (retell_webhook SP (JObj m)) g = []
     ∧ (run ainvoke (retell_webhook SP (JObj m)) g).1.1 = g)
  ∧ (json_compliant (call_id_of m) = true →
     retell_webhook SP (JObj m)
     = LogInfo fmt_received [call_id_of m; ev]
         (Return (Response
                    {[ "response_id" := call_id_of m; "content" := JStr "" ]}))
     ∧ lifecycle_response (call_id_of m) !! "content_complete" = None
     ∧ lifecycle_response (call_id_of m) !! "end_call" = None
     ∧ ∀ G (ainvoke : G → state → config → G * (exception + state)) (g : G),
         run ainvoke (retell_webhook SP (JObj m)) g
         = (g, [Logged fmt_received [call_id_of m; ev]],
            inr (Response (lifecycle_response (call_id_of m))))).
Proof.
  intros Hev Hterm.
  assert (event_of m = ev) as Heq by (unfold event_of; by rewrite Hev).
  rewrite <- Heq in Hterm |- *. split.
  - intros G ainvoke g. unfold engine_calls.
    destruct (run_lifecycle ainvoke SP m g Hterm) as [out ->]. by split.
  - intros Hid. split; [by apply retell_webhook_terminal|].
    split; [reflexivity|]. split; [reflexivity|].
    intros G ainvoke g. by apply run_terminal.
Qed.

Lemma lifecycle_event_short_circuits_witness :
  engine_calls counting_engine
    (retell_webhook example_prompt (JObj ended_fields)) 0 = []
  ∧ retell_webhook example_prompt (JObj ended_fields)
    = LogInfo fmt_received [JStr "abc"; JStr "call_ended"]
        (Return (Response
                   {[ "response_id" := JStr "abc"; "content" := JStr "" ]}))
  ∧ run counting_engine (retell_webhook example_prompt (JObj ended_fields)) 0
    = (0, [Logged fmt_received [JStr "abc"; JStr "call_ended"]],
       inr (Response (lifecycle_response (JStr "abc")))).
Proof.
  destruct (lifecycle_event_short_circuits example_prompt ended_fields
              (JStr "call_ended")) as [Hengine Hresponse].
  - reflexivity.
  - by left.
  - destruct Hresponse as (Htree & _ & _ & Hrun); [reflexivity|].
    split; [exact (proj1 (Hengine nat counting_engine 0))|].
    split; [exact Htree | exact (Hrun nat counting_engine 0)].
Defined.

(** ** The scan for the last user utterance *)

Lemma eq_str_true v s : eq_str v s = true ↔ v = JStr s.
Proof.
  destruct v; cbn [eq_str]; try (split; discriminate).
  rewrite bool_decide_eq_true. split; [by intros -> | by intros [= ->]].
Qed.

Lemma scan_user_text_other d rest :
  d !! "role" ≠ Some (JStr "user") →
  scan_user_text (JObj d :: rest) = scan_user_text rest.
Proof.
  intros Hrole. cbn [scan_user_text py_get]. rewrite bind_Return.
  destruct (eq_str (default JNull (d !! "role")) "user") eqn:E; [|done].
  apply eq_str_true in E. destruct (d !! "role") as [v|]; [|discriminate].
  cbn in E. by subst v.
Qed.

Lemma scan_user_text_skip xs ys :
  Forall other_turn xs → scan_user_text (xs ++ ys) = scan_user_text ys.
Proof.
  induction 1 as [|x xs (d & -> & Hrole) _ IH]; [done|].
  rewrite <- app_comm_cons, scan_user_text_other; done.
Qed.

Lemma scan_user_text_hit d rest :
  d !! "role" = Some (JStr "user") →
  scan_user_text (JObj d :: rest) = Return (default (JStr "") (d !! "content")).
Proof.
  intros Hrole. cbn [scan_user_text py_get]. by rewrite bind_Return, Hrole.
Qed.

Lemma extract_last_user pre d post :
  d !! "role" = Some (JStr "user") →
  Forall other_turn post →
  extract_user_text (JList (pre ++ JObj d :: post))
  = Return (if truthy (default (JStr "") (d !! "content"))
            then default (JStr "") (d !! "content") else JStr "Hola").
Proof.
  intros Hrole Hpost. unfold extract_user_text. cbn [reversed].
  rewrite bind_Return, rev_app_distr. cbn [rev]. rewrite <- app_assoc.
  rewrite scan_user_text_skip by (by apply Forall_rev).
  cbn [app]. by rewrite scan_user_text_hit.
Qed.

Lemma extract_no_user turns :
  Forall other_turn turns → extract_user_text (JList turns) = Return (JStr "Hola").
Proof.
  intros Hall. unfold extract_user_text. cbn [reversed]. rewrite bind_Return.
  rewrite <- (app_nil_r (rev turns)).
  rewrite scan_user_text_skip by (by apply Forall_rev). reflexivity.
Qed.

(** ** What [respond] does *)

(** [respond] raises at once, or logs the reply and builds the four-field
    response. *)
Lemma respond_cases cid result :
  (∃ e, respond cid result = Raise e)
  ∨ (∃ reply shown,
       scan_agent_reply (rev (default [] (messages result))) = Return reply
       ∧ py_slice_to 80 reply = Return shown
       ∧ respond cid result
         = LogInfo fmt_responding [cid; shown]
             (JSONResponse (turn_response cid reply))).
Proof.
  unfold respond.
  destruct (pure_cases _ (scan_agent_reply_pure (rev (default [] (messages result)))))
    as [[reply ->]|[e ->]]; [|left; by exists e].
  rewrite bind_Return.
  destruct (pure_cases _ (py_slice_to_pure 80 reply))
    as [[shown Hshown]|[e ->]]; [|left; by exists e].
  right. exists reply, shown. rewrite Hshown. repeat split; reflexivity.
Qed.

Section ActiveRun.

Context {G : Type}.
Variable ainvoke : G → state → config → G * (exception + state).

Lemma run_respond cid result g :
  ∃ evs out, run ainvoke (respond cid result) g = (g, evs, out)
             ∧ invocations evs = [].
Proof.
  destruct (respond_cases cid result) as [[e ->]|(reply & shown & _ & _ & ->)].
  - by exists [], (inl e).
  - destruct (pure_cases _ (JSONResponse_pure (turn_response cid reply)))
      as [[resp ->]|[e ->]]; eexists [_], _; split; reflexivity.
Qed.

Lemma engine_calls_invokes SP (m : gmap string json) text g :
  ¬ terminal_event (event_of m) →
  extract_user_text (transcript_of m) = Return text →
  message_content text = true →
  engine_calls ainvoke (retell_webhook SP (JObj m)) g
  = [(input_state_for SP (call_id_of m) text, config_for (call_id_of m))].
Proof.
  intros Hev Htext Hvalid. unfold engine_calls.
  rewrite (retell_webhook_invokes SP m text) by done.
  cbn [run]. destruct (ainvoke g _ _) as [g' [e|result]]; [done|].
  destruct (run_respond (call_id_of m) result g') as (evs & out & -> & Hevs).
  cbn [fst snd invocations]. by rewrite Hevs.
Qed.

End ActiveRun.

(** ** What the engine receives *)

Ltac not_terminal :=
  let H := fresh in intros [H|H]; vm_compute in H; discriminate H.

Ltac other_turns :=
  repeat (constructor; [eexists; split; [reflexivity | by vm_compute] |]);
  constructor.

Lemma transcript_of_present (m : gmap string json) t :
  m !! "transcript" = Some t → transcript_of m = t.
Proof. intros H. unfold transcript_of. by rewrite H. Qed.

(** C4: on a non-terminal event, when the transcript is absent, empty or
    holds no user-role entry, the handler invokes the engine, exactly once,
    and the user text of the input state is the greeting ["Hola"]. *)
Theorem greeting_without_user_turn SP (m : gmap string json) :
  ¬ terminal_event (event_of m) →
  (m !! "transcript" = None
   ∨ ∃ turns, m !! "transcript" = Some (JList turns) ∧ Forall other_turn turns) →
  retell_webhook SP (JObj m)
  = LogInfo fmt_received [call_id_of m; event_of m]
      (Ainvoke (input_state_for SP (call_id_of m) (JStr "Hola"))
               (config_for (call_id_of m)) (respond (call_id_of m)))
  ∧ ∀ G (ainvoke : G → state → config → G * (exception + state)) (g : G),
      engine_calls ainvoke (retell_webhook SP (JObj m)) g
      = [(input_state_for SP (call_id_of m) (JStr "Hola"),
          config_for (call_id_of m))].
Proof.
  intros Hev Htr.
  assert (extract_user_text (transcript_of m) = Return (JStr "Hola")) as Htext.
  { destruct Htr as [Hnone|(turns & Hsome & Hall)].
    - unfold transcript_of. rewrite Hnone. reflexivity.
    - rewrite (transcript_of_present m _ Hsome). by apply extract_no_user. }
  split; [by apply retell_webhook_invokes|].
  intros G ainvoke g. by apply engine_calls_invokes.
Qed.

Lemma greeting_without_user_turn_witness :
  retell_webhook example_prompt (JObj started_fields)
  = LogInfo fmt_received [JStr "abc"; JStr "call_started"]
      (Ainvoke (input_state_for example_prompt (JStr "abc") (JStr "Hola"))
               (config_for (JStr "abc")) (respond (JStr "abc")))
  ∧ engine_calls counting_engine
      (retell_webhook example_prompt (JObj started_fields)) 0
    = [(input_state_for example_prompt (JStr "abc") (JStr "Hola"),
        config_for (JStr "abc"))].
Proof.
  destruct (greeting_without_user_turn example_prompt started_fields)
    as [Htree Hcalls].
  - not_terminal.
  - right. exists []. split; [reflexivity | constructor].
  - split; [exact Htree | exact (Hcalls nat counting_engine 0)].
Defined.

(** C3: when the last user-role entry of the transcript has the empty
    string as content, or no content key, the handler does not forward
    that empty text: the engine is invoked with the greeting ["Hola"]. *)
Theorem greeting_on_empty_user_text SP (m : gmap string json) pre d post :
  ¬ terminal_event (event_of m) →
  m !! "transcript" = Some (JList (pre ++ JObj d :: post)) →
  d !! "role" = Some (JStr "user") →
  Forall other_turn post →
  (d !! "content" = Some (JStr "") ∨ d !! "content" = None) →
  retell_webhook SP (JObj m)
  = LogInfo fmt_received [call_id_of m; event_of m]
      (Ainvoke (input_state_for SP (call_id_of m) (JStr "Hola"))
               (config_for (call_id_of m)) (respond (call_id_of m)))
  ∧ ∀ G (ainvoke : G → state → config → G * (exception + state)) (g : G),
      engine_calls ainvoke (retell_webhook SP (JObj m)) g
      = [(input_state_for SP (call_id_of m) (JStr "Hola"),
          config_for (call_id_of m))].
Proof.
  intros Hev Htr Hrole Hpost Hcontent.
  assert (extract_user_text (transcript_of m) = Return (JStr "Hola")) as Htext.
  { rewrite (transcript_of_present m _ Htr), extract_last_user by done.
    by destruct Hcontent as [-> | ->]. }
  split; [by apply retell_webhook_invokes|].
  intros G ainvoke g. by apply engine_calls_invokes.
Qed.

Lemma greeting_on_empty_user_text_witness :
  engine_calls counting_engine
    (retell_webhook example_prompt (JObj silent_fields)) 0
  = [(input_state_for example_prompt (JStr "abc") (JStr "Hola"),
      config_for (JStr "abc"))].
Proof.
  refine (proj2 (greeting_on_empty_user_text example_prompt silent_fields
                   [turn_of "user" "Quiero una cita"]
                   {[ "role" := JStr "user"; "content" := JStr "" ]}
                   [turn_of "agent" "Sigue ahi?"] _ _ _ _ _)
                nat counting_engine 0).
  - not_terminal.
  - reflexivity.
  - reflexivity.
  - other_turns.
  - by left.
Defined.

(** C2, as amended: when the last user-role entry of the transcript has a
    non-empty text as content, that text is the user text of the engine's
    input state, whatever the turns before it. *)
Theorem last_user_text_forwarded SP (m : gmap string json) pre d post s :
  ¬ terminal_event (event_of m) →
  m !! "transcript" = Some (JList (pre ++ JObj d :: post)) →
  d !! "role" = Some (JStr "user") →
  Forall other_turn post →
  d !! "content" = Some (JStr s) →
  s ≠ "" →
  retell_webhook SP (JObj m)
  = LogInfo fmt_received [call_id_of m; event_of m]
      (Ainvoke (input_state_for SP (call_id_of m) (JStr s))
               (config_for (call_id_of m)) (respond (call_id_of m)))
  ∧ ∀ G (ainvoke : G → state → config → G * (exception + state)) (g : G),
      engine_calls ainvoke (retell_webhook SP (JObj m)) g
      = [(input_state_for SP (call_id_of m) (JStr s),
          config_for (call_id_of m))].
Proof.
  intros Hev Htr Hrole Hpost Hcontent Hs.
  assert (extract_user_text (transcript_of m) = Return (JStr s)) as Htext.
  { rewrite (transcript_of_present m _ Htr), extract_last_user by done.
    rewrite Hcontent. cbn [from_option id truthy].
    by rewrite bool_decide_eq_false_2. }
  split; [by apply retell_webhook_invokes|].
  intros G ainvoke g. by apply engine_calls_invokes.
Qed.

Lemma last_user_text_forwarded_witness :
  engine_calls counting_engine
    (retell_webhook example_prompt (JObj booking_fields)) 0
  = [(input_state_for example_prompt (JStr "abc") (JStr "Quiero una cita"),
      config_for (JStr "abc"))].
Proof.
  refine (proj2 (last_user_text_forwarded example_prompt booking_fields
                   [turn_of "user" "Buenas tardes";
                    turn_of "agent" "Hola, en que puedo ayudarle?"]
                   {[ "role" := JStr "user"; "content" := JStr "Quiero una cita" ]}
                   [turn_of "agent" "Claro"] "Quiero una cita" _ _ _ _ _ _)
                nat counting_engine 0).
  - not_terminal.
  - reflexivity.
  - reflexivity.
  - other_turns.
  - reflexivity.
  - discriminate.
Defined.

(** C2, as stated, fails: the content of the last user-role entry is not
    what the engine receives when that content is the empty string. *)
Lemma last_user_text_not_always_forwarded :
  ¬ (∀ SP (m : gmap string json) pre d post s,
       ¬ terminal_event (event_of m) →
       m !! "transcript" = Some (JList (pre ++ JObj d :: post)) →
       d !! "role" = Some (JStr "user") →
       Forall other_turn post →
       d !! "content" = Some (JStr s) →
       ∀ G (ainvoke : G → state → config → G * (exception + state)) (g : G),
         engine_calls ainvoke (retell_webhook SP (JObj m)) g
         = [(input_state_for SP (call_id_of m) (JStr s),
             config_for (call_id_of m))]).
Proof.
  intros Hclaim.
  specialize (Hclaim example_prompt silent_fields
                [turn_of "user" "Quiero una cita"]
                {[ "role" := JStr "user"; "content" := JStr "" ]}
                [turn_of "agent" "Sigue ahi?"] "").
  assert (engine_calls counting_engine
            (retell_webhook example_prompt (JObj silent_fields)) 0
          = [(input_state_for example_prompt (call_id_of silent_fields) (JStr ""),
              config_for (call_id_of silent_fields))]) as Hcalls.
  { apply Hclaim; [not_terminal | reflexivity | reflexivity | other_turns | reflexivity]. }
  vm_compute in Hcalls. discriminate Hcalls.
Qed.

(** ** The scan for the agent's reply *)

Lemma scan_agent_reply_skip xs ys :
  Forall not_ai xs → scan_agent_reply (xs ++ ys) = scan_agent_reply ys.
Proof.
  induction 1 as [|x xs [Htag Hattr] _ IH]; [done|].
  rewrite <- app_comm_cons. cbn [scan_agent_reply].
  destruct (content x) as [c|]; [|exact IH].
  destruct Hattr as [t Ht]; [by eexists|]. rewrite Ht in Htag |- *.
  rewrite bool_decide_eq_false_2; [exact IH | congruence].
Qed.

Lemma scan_agent_reply_last msgs reply :
  last_ai_content msgs reply → scan_agent_reply (rev msgs) = Return reply.
Proof.
  intros [(pre & msg & post & -> & Htag & Hc & Hpost)|[Hall ->]].
  - rewrite rev_app_distr. cbn [rev]. rewrite <- app_assoc.
    rewrite scan_agent_reply_skip by (by apply Forall_rev).
    cbn [app scan_agent_reply]. rewrite Hc, Htag.
    by rewrite bool_decide_eq_true_2.
  - rewrite <- (app_nil_r (rev msgs)).
    by rewrite scan_agent_reply_skip by (by apply Forall_rev).
Qed.

Lemma py_slice_to_text_or_blocks n c :
  text_or_blocks c → ∃ shown, py_slice_to n c = Return shown.
Proof. intros [[s ->]|[blocks ->]]; eexists; reflexivity. Qed.

Lemma respond_reply cid result reply :
  last_ai_content (default [] (messages result)) reply →
  text_or_blocks reply →
  json_compliant cid = true →
  json_compliant reply = true →
  ∃ shown,
    py_slice_to 80 reply = Return shown
    ∧ respond cid result
      = LogInfo fmt_responding [cid; shown]
          (Return (Response (turn_response cid reply))).
Proof.
  intros Hlast Hc Hcid Hreply.
  destruct (py_slice_to_text_or_blocks 80 reply Hc) as [shown Hs].
  exists shown. split; [exact Hs|].
  unfold respond. rewrite (scan_agent_reply_last _ _ Hlast), bind_Return, Hs.
  rewrite bind_Return. unfold logger_info. rewrite bind_LogInfo, bind_Return.
  fold (turn_response cid reply). by rewrite JSONResponse_turn.
Qed.

(** C7: the reply is the content of the last message of the engine's
    result that is tagged ["ai"], and the empty string when the result has
    no such message or no message list at all; it is the content of the
    response, which is built once the call identifier and the reply can be
    rendered as JSON, as every text can. *)
Theorem agent_reply_is_last_ai_message cid result reply :
  last_ai_content (default [] (messages result)) reply →
  text_or_blocks reply →
  scan_agent_reply (rev (default [] (messages result))) = Return reply
  ∧ (json_compliant cid = true →
     json_compliant reply = true →
     ∃ shown,
       respond cid result
       = LogInfo fmt_responding [cid; shown]
           (Return (Response
                      {[ "response_id" := cid;
                         "content" := reply;
                         "content_complete" := JBool true;
                         "end_call" := JBool false ]}))).
Proof.
  intros Hlast Hc. split; [by apply scan_agent_reply_last|].
  intros Hcid Hreply.
  destruct (respond_reply cid result reply Hlast Hc Hcid Hreply)
    as (shown & _ & Heq).
  by exists shown.
Qed.

Lemma agent_reply_is_last_ai_message_witness :
  scan_agent_reply (rev (default [] (messages example_result)))
  = Return (JStr "Para que dia?")
  ∧ ∃ shown,
      respond (JStr "abc") example_result
      = LogInfo fmt_responding [JStr "abc"; shown]
          (Return (Response
                     {[ "response_id" := JStr "abc";
                        "content" := JStr "Para que dia?";
                        "content_complete" := JBool true;
                        "end_call" := JBool false ]})).
Proof.
  destruct (agent_reply_is_last_ai_message (JStr "abc") example_result
              (JStr "Para que dia?")) as [Hscan Hrespond].
  - left. exists [example_prompt; human_message (JStr "Quiero una cita");
                  ai_message "Un momento"],
                 (ai_message "Para que dia?"),
                 [{| content := Some (JStr "{}"); type := Some "tool" |}].
    do 3 (split; [reflexivity|]).
    constructor; [|constructor].
    split; [discriminate | by eexists].
  - left. by eexists.
  - split; [exact Hscan | apply Hrespond; reflexivity].
Defined.

(** ** Responses of the active path *)

Lemma scan_user_text_text turns :
  Forall text_turn turns → ∃ s, scan_user_text turns = Return (JStr s).
Proof.
  induction 1 as [|turn rest (d & -> & Hcontent) _ IH]; [by exists ""|].
  cbn [scan_user_text py_get]. rewrite bind_Return.
  destruct (eq_str _ "user"); [|exact IH].
  destruct Hcontent as [->|[s ->]]; eexists; reflexivity.
Qed.

Lemma extract_text_transcript transcript :
  text_transcript transcript →
  ∃ s, extract_user_text transcript = Return (JStr s).
Proof.
  intros (turns & -> & Hall). unfold extract_user_text. cbn [reversed].
  rewrite bind_Return.
  destruct (scan_user_text_text (rev turns)) as [s ->]; [by apply Forall_rev|].
  rewrite bind_Return. destruct (truthy (JStr s)); eexists; reflexivity.
Qed.

Section Responses.

Context {G : Type}.
Variable ainvoke : G → state → config → G * (exception + state).

(** Every response of the active path comes from one engine invocation
    and has the four fields. *)
Lemma run_active_turn_inv SP cid transcript g g' evs resp :
  run ainvoke (active_turn SP cid transcript) g = (g', evs, inr resp) →
  ∃ text result reply shown,
    extract_user_text transcript = Return text
    ∧ message_content text = true
    ∧ ainvoke g (input_state_for SP cid text) (config_for cid) = (g', inr result)
    ∧ scan_agent_reply (rev (default [] (messages result))) = Return reply
    ∧ evs = [Invoked (input_state_for SP cid text) (config_for cid);
             Logged fmt_responding [cid; shown]]
    ∧ resp = Response (turn_response cid reply).
Proof.
  destruct (pure_cases _ (extract_user_text_pure transcript))
    as [[text Htext]|[e He]].
  - destruct (message_content text) eqn:Hvalid.
    + rewrite (active_turn_invokes SP cid transcript text) by done. cbn [run].
      destruct (ainvoke g _ _) as [g1 [e|result]] eqn:Hcall; [discriminate|].
      destruct (respond_cases cid result)
        as [[e ->]|(reply & shown & Hreply & _ & ->)]; [discriminate|].
      unfold JSONResponse. destruct (json_compliant _); cbn [run]; [|discriminate].
      intros [= -> <- <-]. by exists text, result, reply, shown.
    + unfold active_turn, HumanMessage. rewrite Htext, bind_Return, Hvalid.
      discriminate.
  - unfold active_turn. rewrite He. discriminate.
Qed.

(** With the user text extracted, an answering engine and a reply that
    can be logged and rendered, the active path returns the four-field
    response. *)
Lemma run_active_turn_produces SP cid transcript text g g' result reply :
  extract_user_text transcript = Return text →
  message_content text = true →
  ainvoke g (input_state_for SP cid text) (config_for cid) = (g', inr result) →
  last_ai_content (default [] (messages result)) reply →
  text_or_blocks reply →
  json_compliant cid = true →
  json_compliant reply = true →
  ∃ shown,
    run ainvoke (active_turn SP cid transcript) g
    = (g',
       [Invoked (input_state_for SP cid text) (config_for cid);
        Logged fmt_responding [cid; shown]],
       inr (Response (turn_response cid reply))).
Proof.
  intros Htext Hvalid Hcall Hlast Hc Hcid Hreply.
  destruct (respond_reply cid result reply Hlast Hc Hcid Hreply)
    as (shown & _ & Hrespond).
  exists shown. rewrite (active_turn_invokes SP cid transcript text) by done.
  cbn [run]. rewrite Hcall, Hrespond. reflexivity.
Qed.

Lemma run_response_inv SP (m : gmap string json) g g' evs resp :
  ¬ terminal_event (event_of m) →
  run ainvoke (retell_webhook SP (JObj m)) g = (g', evs, inr resp) →
  ∃ text result reply shown,
    extract_user_text (transcript_of m) = Return text
    ∧ message_content text = true
    ∧ ainvoke g (input_state_for SP (call_id_of m) text) (config_for (call_id_of m))
      = (g', inr result)
    ∧ scan_agent_reply (rev (default [] (messages result))) = Return reply
    ∧ evs = [Logged fmt_received [call_id_of m; event_of m];
             Invoked (input_state_for SP (call_id_of m) text)
                     (config_for (call_id_of m));
             Logged fmt_responding [call_id_of m; shown]]
    ∧ resp = Response (turn_response (call_id_of m) reply).
Proof.
  intros Hev. rewrite retell_webhook_active by done. cbn [run].
  destruct (run ainvoke (active_turn _ _ _) g) as [[g1 evs1] out1] eqn:Hrun.
  intros [= -> <- ->].
  destruct (run_active_turn_inv _ _ _ _ _ _ _ Hrun)
    as (text & result & reply & shown & Htext & Hvalid & Hcall & Hreply & -> & ->).
  by exists text, result, reply, shown.
Qed.

Lemma run_produces SP (m : gmap string json) text g g' result reply :
  ¬ terminal_event (event_of m) →
  extract_user_text (transcript_of m) = Return text →
  message_content text = true →
  ainvoke g (input_state_for SP (call_id_of m) text) (config_for (call_id_of m))
  = (g', inr result) →
  last_ai_content (default [] (messages result)) reply →
  text_or_blocks reply →
  json_compliant (call_id_of m) = true →
  json_compliant reply = true →
  ∃ shown,
    run ainvoke (retell_webhook SP (JObj m)) g
    = (g',
       [Logged fmt_received [call_id_of m; event_of m];
        Invoked (input_state_for SP (call_id_of m) text)
                (config_for (call_id_of m));
        Logged fmt_responding [call_id_of m; shown]],
       inr (Response (turn_response (call_id_of m) reply))).
Proof.
  intros Hev Htext Hvalid Hcall Hlast Hc Hcid Hreply.
  destruct (run_active_turn_produces SP (call_id_of m) (transcript_of m) text
              g g' result reply) as [shown Hrun]; try done.
  exists shown. rewrite retell_webhook_active by done. cbn [run].
  by rewrite Hrun.
Qed.

End Responses.

(** C5: on a non-terminal event, every response the handler returns is
    exactly [{response_id: call_id, content: agent_reply,
    content_complete: true, end_call: false}]; and it does return it
    whenever the transcript has the payload shape, the engine answers, the
    reply is readable, and call identifier and reply can be rendered as
    JSON, as every text can. *)
Theorem active_turn_response SP (m : gmap string json) :
  ¬ terminal_event (event_of m) →
  (∀ G (ainvoke : G → state → config → G * (exception + state)) g g' evs resp,
     run ainvoke (retell_webhook SP (JObj m)) g = (g', evs, inr resp) →
     ∃ agent_reply,
       resp = Response {[ "response_id" := call_id_of m;
                          "content" := agent_reply;
                          "content_complete" := JBool true;
                          "end_call" := JBool false ]})
  ∧ (text_transcript (transcript_of m) →
     json_compliant (call_id_of m) = true →
     ∃ text,
       ∀ G (ainvoke : G → state → config → G * (exception + state)) g g'
         result agent_reply,
         ainvoke g (input_state_for SP (call_id_of m) (JStr text))
                   (config_for (call_id_of m)) = (g', inr result) →
         last_ai_content (default [] (messages result)) agent_reply →
         text_or_blocks agent_reply →
         json_compliant agent_reply = true →
         ∃ shown,
           run ainvoke (retell_webhook SP (JObj m)) g
           = (g',
              [Logged fmt_received [call_id_of m; event_of m];
               Invoked (input_state_for SP (call_id_of m) (JStr text))
                       (config_for (call_id_of m));
               Logged fmt_responding [call_id_of m; shown]],
              inr (Response {[ "response_id" := call_id_of m;
                               "content" := agent_reply;
                               "content_complete" := JBool true;
                               "end_call" := JBool false ]}))).
Proof.
  intros Hev. split.
  - intros G ainvoke g g' evs resp Hrun.
    destruct (run_response_inv ainvoke SP m g g' evs resp Hev Hrun)
      as (text & result & reply & shown & _ & _ & _ & _ & _ & ->).
    by exists reply.
  - intros Htr Hcid. destruct (extract_text_transcript _ Htr) as [text Htext].
    exists text. intros G ainvoke g g' result reply Hcall Hlast Hc Hreply.
    by apply (run_produces ainvoke SP m (JStr text) g g' result reply).
Qed.

Lemma active_turn_response_witness :
  ∃ text shown,
    run counting_engine (retell_webhook example_prompt (JObj started_fields)) 0
    = (1,
       [Logged fmt_received [JStr "abc"; JStr "call_started"];
        Invoked (input_state_for example_prompt (JStr "abc") (JStr text))
                (config_for (JStr "abc"));
        Logged fmt_responding [JStr "abc"; shown]],
       inr (Response {[ "response_id" := JStr "abc";
                        "content" := JStr "Buenos dias";
                        "content_complete" := JBool true;
                        "end_call" := JBool false ]})).
Proof.
  destruct (active_turn_response example_prompt started_fields) as [_ Hreturns].
  - not_terminal.
  - destruct Hreturns as [text Hrun].
    + exists []. split; [reflexivity | constructor].
    + reflexivity.
    + exists text.
      apply (Hrun nat counting_engine 0 1
               {| messages := Some ([example_prompt; human_message (JStr text)]
                                    ++ [ai_message "Buenos dias"]);
                  call_id := Some (JStr "abc") |}
               (JStr "Buenos dias")).
      * reflexivity.
      * left. exists [example_prompt; human_message (JStr text)],
                     (ai_message "Buenos dias"), [].
        do 3 (split; [reflexivity|]). constructor.
      * left. by eexists.
      * reflexivity.
Defined.

(** ** The echoed call identifier *)

(** C6, as amended: the [response_id] of every response is the parsed
    call identifier: the inbound [call_id] verbatim when the body has one,
    and ["unknown"] when it has none. *)
Theorem response_id_echoes_call_id SP (m : gmap string json)
    G (ainvoke : G → state → config → G * (exception + state)) g g' evs resp :
  run ainvoke (retell_webhook SP (JObj m)) g = (g', evs, inr resp) →
  body_of resp !! "response_id" = Some (call_id_of m)
  ∧ (∀ c, m !! "call_id" = Some c → body_of resp !! "response_id" = Some c)
  ∧ (m !! "call_id" = None →
     body_of resp !! "response_id" = Some (JStr "unknown")).
Proof.
  intros Hrun.
  assert (body_of resp !! "response_id" = Some (call_id_of m)) as Hid.
  { destruct (terminal_event_dec (event_of m)) as [Hev|Hev].
    - by rewrite (run_terminal_inv ainvoke SP m g g' evs resp Hev Hrun).
    - destruct (run_response_inv ainvoke SP m g g' evs resp Hev Hrun)
        as (text & result & reply & shown & _ & _ & _ & _ & _ & ->).
      reflexivity. }
  split; [exact Hid|]. unfold call_id_of in Hid.
  split; [intros c Hc | intros Hc]; by rewrite Hc in Hid.
Qed.

Lemma response_id_echoes_call_id_witness :
  body_of (Response (turn_response (JStr "abc") (JStr "Buenos dias")))
    !! "response_id" = Some (JStr "abc").
Proof.
  refine (proj1 (response_id_echoes_call_id example_prompt started_fields
                   nat counting_engine 0 1
                   [Logged fmt_received [JStr "abc"; JStr "call_started"];
                    Invoked (input_state_for example_prompt (JStr "abc") (JStr "Hola"))
                            (config_for (JStr "abc"));
                    Logged fmt_responding [JStr "abc"; JStr "Buenos dias"]]
                   (Response (turn_response (JStr "abc") (JStr "Buenos dias")))
                   _)).
  reflexivity.
Defined.

(** C6, as stated, fails: a body whose [call_id] is the text ["unknown"]
    has the field, and its response carries the sentinel all the same. *)
Lemma sentinel_also_when_present :
  ¬ (∀ SP (m : gmap string json)
       G (ainvoke : G → state → config → G * (exception + state)) g g' evs resp,
       run ainvoke (retell_webhook SP (JObj m)) g = (g', evs, inr resp) →
       body_of resp !! "response_id" = Some (call_id_of m)
       ∧ (body_of resp !! "response_id" = Some (JStr "unknown")
          ↔ m !! "call_id" = None)).
Proof.
  intros Hclaim.
  destruct (Hclaim example_prompt unknown_fields nat counting_engine 0 0
              [Logged fmt_received [JStr "unknown"; JStr "call_ended"]]
              (Response (lifecycle_response (JStr "unknown"))))
    as [_ [Habsent _]]; [reflexivity|].
  specialize (Habsent eq_refl). vm_compute in Habsent. discriminate Habsent.
Qed.

(** ** Missing fields *)

Lemma default_union_defaults (b : gmap string json) key dflt :
  defaults !! key = Some dflt →
  default dflt ((b ∪ defaults) !! key) = default dflt (b !! key).
Proof.
  intros Hd. destruct (b !! key) as [v|] eqn:Hb.
  - by rewrite (lookup_union_Some_l _ _ _ _ Hb).
  - by rewrite lookup_union_r, Hd.
Qed.

Lemma retell_webhook_defaults SP (b : gmap string json) :
  retell_webhook SP (JObj b) = retell_webhook SP (JObj (b ∪ defaults)).
Proof.
  rewrite !retell_webhook_fields. unfold call_id_of, event_of, transcript_of.
  by rewrite !default_union_defaults.
Qed.

(** C8: a body without [call_id], [event] and [transcript] is handled as
    the body that carries their defaults ["unknown"], [""] and [[]]; the
    handler greets the engine under the session key ["unknown"] and, when
    the engine answers with a reply that can be rendered, returns the
    normal four-field response.  More generally any body is handled as the
    body completed with the defaults of the fields it lacks. *)
Theorem missing_fields_default SP (m : gmap string json)
    G (ainvoke : G → state → config → G * (exception + state)) g g'
    result agent_reply :
  m !! "call_id" = None →
  m !! "event" = None →
  m !! "transcript" = None →
  ainvoke g (input_state_for SP (JStr "unknown") (JStr "Hola"))
            (config_for (JStr "unknown")) = (g', inr result) →
  last_ai_content (default [] (messages result)) agent_reply →
  text_or_blocks agent_reply →
  json_compliant agent_reply = true →
  (∀ b : gmap string json,
     retell_webhook SP (JObj b) = retell_webhook SP (JObj (b ∪ defaults)))
  ∧ ∃ shown,
      run ainvoke (retell_webhook SP (JObj m)) g
      = (g',
         [Logged fmt_received [JStr "unknown"; JStr ""];
          Invoked (input_state_for SP (JStr "unknown") (JStr "Hola"))
                  (config_for (JStr "unknown"));
          Logged fmt_responding [JStr "unknown"; shown]],
         inr (Response {[ "response_id" := JStr "unknown";
                          "content" := agent_reply;
                          "content_complete" := JBool true;
                          "end_call" := JBool false ]})).
Proof.
  intros Hid Hevent Htr Hcall Hlast Hc Hreply.
  split; [intros b; apply retell_webhook_defaults|].
  assert (call_id_of m = JStr "unknown") as Eid
    by (unfold call_id_of; by rewrite Hid).
  assert (event_of m = JStr "") as Eev by (unfold event_of; by rewrite Hevent).
  assert (transcript_of m = JList []) as Etr
    by (unfold transcript_of; by rewrite Htr).
  destruct (run_produces ainvoke SP m (JStr "Hola") g g' result agent_reply)
    as [shown Hrun]; try done.
  - rewrite Eev. not_terminal.
  - by rewrite Etr.
  - by rewrite Eid.
  - by rewrite Eid.
  - exists shown. by rewrite Hrun, Eid, Eev.
Qed.

Lemma missing_fields_default_witness :
  ∃ shown,
    run counting_engine (retell_webhook example_prompt (JObj bare_fields)) 0
    = (1,
       [Logged fmt_received [JStr "unknown"; JStr ""];
        Invoked (input_state_for example_prompt (JStr "unknown") (JStr "Hola"))
                (config_for (JStr "unknown"));
        Logged fmt_responding [JStr "unknown"; shown]],
       inr (Response {[ "response_id" := JStr "unknown";
                        "content" := JStr "Buenos dias";
                        "content_complete" := JBool true;
                        "end_call" := JBool false ]})).
Proof.
  refine (proj2 (missing_fields_default example_prompt bare_fields
                   nat counting_engine 0 1
                   {| messages := Some [example_prompt; human_message (JStr "Hola");
                                        ai_message "Buenos dias"];
                      call_id := Some (JStr "unknown") |}
                   (JStr "Buenos dias") _ _ _ _ _ _ _)).
  - reflexivity.
  - reflexivity.
  - reflexivity.
  - reflexivity.
  - left. exists [example_prompt; human_message (JStr "Hola")],
                 (ai_message "Buenos dias"), [].
    do 3 (split; [reflexivity|]). constructor.
  - left. by eexists.
  - reflexivity.
Defined.

(** ** Events other than the two lifecycle events *)

Lemma call_id_of_with_event ev (m : gmap string json) :
  call_id_of (with_event ev m) = call_id_of m.
Proof.
  unfold call_id_of, with_event.
  destruct ev; [by rewrite lookup_insert_ne | by rewrite lookup_delete_ne].
Qed.

Lemma transcript_of_with_event ev (m : gmap string json) :
  transcript_of (with_event ev m) = transcript_of m.
Proof.
  unfold transcript_of, with_event.
  destruct ev; [by rewrite lookup_insert_ne | by rewrite lookup_delete_ne].
Qed.

Lemma event_of_with_event ev (m : gmap string json) :
  event_of (with_event ev m) = default (JStr "") ev.
Proof.
  unfold event_of, with_event.
  destruct ev; [by rewrite lookup_insert_eq | by rewrite lookup_delete_eq].
Qed.

Lemma retell_webhook_with_event SP ev (m : gmap string json) :
  ¬ terminal_event (default (JStr "") ev) →
  retell_webhook SP (JObj (with_event ev m))
  = LogInfo fmt_received [call_id_of m; default (JStr "") ev]
      (active_turn SP (call_id_of m) (transcript_of m)).
Proof.
  intros Hev. rewrite retell_webhook_active
    by (by rewrite event_of_with_event).
  by rewrite call_id_of_with_event, transcript_of_with_event, event_of_with_event.
Qed.

Lemma invocations_active_turn
    {G} (ainvoke : G → state → config → G * (exception + state))
    SP cid transcript text g :
  extract_user_text transcript = Return text →
  message_content text = true →
  invocations (run ainvoke (active_turn SP cid transcript) g).1.2
  = [(input_state_for SP cid text, config_for cid)].
Proof.
  intros Htext Hvalid.
  rewrite (active_turn_invokes SP cid transcript text) by done.
  cbn [run]. destruct (ainvoke g _ _) as [g' [e|result]]; [done|].
  destruct (run_respond ainvoke cid result g') as (evs & out & -> & Hevs).
  cbn [fst snd invocations]. by rewrite Hevs.
Qed.

(** C9: two requests that differ only in their [event], neither being
    ["call_ended"] nor ["call_analyzed"] (any other text, any other value,
    or no event at all), are handled alike: the same engine invocations,
    the same final engine state, the same outcome and, but for the event
    printed in the first log line, the same log.  Both take the active
    path: with a transcript of the payload shape the engine is invoked,
    and when it answers with a readable reply (call identifier and reply
    being renderable as JSON, as every text is) the outcome of both is the
    four-field response; no other response is ever returned. *)
Theorem other_events_handled_alike SP (m : gmap string json) (ev1 ev2 : option json)
    G (ainvoke : G → state → config → G * (exception + state)) g :
  ¬ terminal_event (default (JStr "") ev1) →
  ¬ terminal_event (default (JStr "") ev2) →
  ∃ g' evs out,
    run ainvoke (retell_webhook SP (JObj (with_event ev1 m))) g
    = (g', Logged fmt_received [call_id_of m; default (JStr "") ev1] :: evs, out)
    ∧ run ainvoke (retell_webhook SP (JObj (with_event ev2 m))) g
      = (g', Logged fmt_received [call_id_of m; default (JStr "") ev2] :: evs, out)
    ∧ (text_transcript (transcript_of m) →
       ∃ text,
         invocations evs
         = [(input_state_for SP (call_id_of m) (JStr text),
             config_for (call_id_of m))]
         ∧ ∀ g1 result agent_reply,
             ainvoke g (input_state_for SP (call_id_of m) (JStr text))
                       (config_for (call_id_of m)) = (g1, inr result) →
             last_ai_content (default [] (messages result)) agent_reply →
             text_or_blocks agent_reply →
             json_compliant (call_id_of m) = true →
             json_compliant agent_reply = true →
             g' = g1
             ∧ out = inr (Response {[ "response_id" := call_id_of m;
                                      "content" := agent_reply;
                                      "content_complete" := JBool true;
                                      "end_call" := JBool false ]}))
    ∧ (∀ resp, out = inr resp →
         ∃ agent_reply,
           resp = Response {[ "response_id" := call_id_of m;
                              "content" := agent_reply;
                              "content_complete" := JBool true;
                              "end_call" := JBool false ]}).
Proof.
  intros H1 H2. rewrite !retell_webhook_with_event by done. cbn [run].
  destruct (run ainvoke (active_turn SP (call_id_of m) (transcript_of m)) g)
    as [[g' evs] out] eqn:Hrun.
  exists g', evs, out. do 2 (split; [reflexivity|]). split.
  - intros Htr. destruct (extract_text_transcript _ Htr) as [text Htext].
    exists text. split.
    + pose proof (invocations_active_turn ainvoke SP (call_id_of m)
                    (transcript_of m) (JStr text) g Htext eq_refl) as Hcalls.
      by rewrite Hrun in Hcalls.
    + intros g1 result reply Hcall Hlast Hc Hcid Hreply.
      destruct (run_active_turn_produces ainvoke SP (call_id_of m)
                  (transcript_of m) (JStr text) g g1 result reply)
        as [shown Hproduced]; try done.
      rewrite Hrun in Hproduced. by injection Hproduced as -> _ ->.
  - intros resp ->.
    destruct (run_active_turn_inv ainvoke SP _ _ g g' evs resp Hrun)
      as (text & result & reply & shown & _ & _ & _ & _ & _ & ->).
    by exists reply.
Qed.

Lemma other_events_handled_alike_witness :
  ∃ g' evs,
    run counting_engine
      (retell_webhook example_prompt
         (JObj (with_event (Some (JStr "call_started")) booking_fields))) 0
    = (g', Logged fmt_received [JStr "abc"; JStr "call_started"] :: evs,
       inr (Response (turn_response (JStr "abc") (JStr "Buenos dias"))))
    ∧ run counting_engine
        (retell_webhook example_prompt (JObj (with_event None booking_fields))) 0
      = (g', Logged fmt_received [JStr "abc"; JStr ""] :: evs,
         inr (Response (turn_response (JStr "abc") (JStr "Buenos dias")))).
Proof.
  destruct (other_events_handled_alike example_prompt booking_fields
              (Some (JStr "call_started")) None nat counting_engine 0)
    as (g' & evs & out & Hrun1 & Hrun2 & Hactive & _).
  - not_terminal.
  - not_terminal.
  - destruct Hactive as (text & _ & Hanswer).
    + eexists. split; [reflexivity|].
      repeat (constructor; [eexists; split; [reflexivity | right; by eexists] |]).
      constructor.
    + destruct (Hanswer 1
                  {| messages := Some ([example_prompt; human_message (JStr text)]
                                       ++ [ai_message "Buenos dias"]);
                     call_id := Some (JStr "abc") |}
                  (JStr "Buenos dias")) as [_ Hout].
      * reflexivity.
      * left. exists [example_prompt; human_message (JStr text)],
                     (ai_message "Buenos dias"), [].
        do 3 (split; [reflexivity|]). constructor.
      * left. by eexists.
      * reflexivity.
      * reflexivity.
      * exists g', evs. rewrite Hout in Hrun1, Hrun2.
        split; [exact Hrun1 | exact Hrun2].
Defined.

(** * Further properties of the handler *)

(** ** Bodies and fields *)

(** X1: a body that is not a JSON object makes the handler raise
    [AttributeError] at its first statement: nothing is logged, the engine
    is not invoked and its state is unchanged. *)
Theorem non_object_body_raises SP body
    G (ainvoke : G → state → config → G * (exception + state)) g :
  (∀ fields, body ≠ JObj fields) →
  run ainvoke (retell_webhook SP body) g = (g, [], inl (AttributeError "get")).
Proof.
  intros Hbody. rewrite retell_webhook_not_object by done. reflexivity.
Qed.

Lemma non_object_body_raises_witness :
  run counting_engine (retell_webhook example_prompt (JList [JObj started_fields])) 0
  = (0, [], inl (AttributeError "get")).
Proof.
  apply (non_object_body_raises example_prompt (JList [JObj started_fields])
           nat counting_engine 0).
  intros fields. discriminate.
Defined.

(** X2: the handler reads nothing of its body but [call_id], [event] and
    [transcript]: two bodies that agree on these three fields are handled
    by the same computation. *)
Theorem other_fields_ignored SP (m1 m2 : gmap string json) :
  m1 !! "call_id" = m2 !! "call_id" →
  m1 !! "event" = m2 !! "event" →
  m1 !! "transcript" = m2 !! "transcript" →
  retell_webhook SP (JObj m1) = retell_webhook SP (JObj m2).
Proof.
  intros Hid Hev Htr. rewrite !retell_webhook_fields.
  unfold call_id_of, event_of, transcript_of. by rewrite Hid, Hev, Htr.
Qed.

Lemma other_fields_ignored_witness :
  retell_webhook example_prompt (JObj annotated_fields)
  = retell_webhook example_prompt (JObj started_fields).
Proof.
  apply (other_fields_ignored example_prompt annotated_fields started_fields);
    reflexivity.
Defined.

(** X3: whenever the body is a JSON object the first effect of the
    handler is the receipt log line with the parsed call identifier and
    event, whatever happens afterwards. *)
Theorem receipt_logged_first SP (m : gmap string json)
    G (ainvoke : G → state → config → G * (exception + state)) g :
  ∃ g' evs out,
    run ainvoke (retell_webhook SP (JObj m)) g
    = (g', Logged fmt_received [call_id_of m; event_of m] :: evs, out).
Proof.
  rewrite retell_webhook_fields. cbn [run].
  destruct (run ainvoke _ g) as [[g' evs] out]. by exists g', evs, out.
Qed.

(** ** Malformed transcripts *)

(** X4: on a non-terminal event a transcript that is [null], a boolean or
    a number makes [reversed] raise [TypeError]; the receipt has been
    logged, the engine is not invoked and its state is unchanged. *)
Theorem unreversible_transcript_raises SP (m : gmap string json) t
    G (ainvoke : G → state → config → G * (exception + state)) g :
  ¬ terminal_event (event_of m) →
  m !! "transcript" = Some t →
  scalar t →
  ∃ what,
    run ainvoke (retell_webhook SP (JObj m)) g
    = (g, [Logged fmt_received [call_id_of m; event_of m]],
       inl (TypeError what)).
Proof.
  intros Hev Htr Ht. rewrite retell_webhook_active by done.
  rewrite (transcript_of_present m t Htr).
  destruct Ht as [->|[[b ->]|[[n ->]|[x ->]]]]; eexists; reflexivity.
Qed.

Lemma unreversible_transcript_raises_witness :
  ∃ what,
    run counting_engine
      (retell_webhook example_prompt (JObj null_transcript_fields)) 0
    = (0, [Logged fmt_received [JStr "abc"; JStr "call_started"]],
       inl (TypeError what)).
Proof.
  apply (unreversible_transcript_raises example_prompt null_transcript_fields
           JNull nat counting_engine 0).
  - not_terminal.
  - reflexivity.
  - by left.
Defined.

Lemma scan_user_text_not_dict x rest :
  (∀ d, x ≠ JObj d) → scan_user_text (x :: rest) = Raise (AttributeError "get").
Proof.
  intros Hx. destruct x; try reflexivity. by destruct (Hx fields).
Qed.

(** X5: on a non-terminal event, a transcript entry that is not a dict
    and is followed by no user turn is reached by the backward scan and
    makes it raise [AttributeError]; the engine is not invoked. *)
Theorem non_dict_turn_raises SP (m : gmap string json) pre x post
    G (ainvoke : G → state → config → G * (exception + state)) g :
  ¬ terminal_event (event_of m) →
  m !! "transcript" = Some (JList (pre ++ x :: post)) →
  (∀ d, x ≠ JObj d) →
  Forall other_turn post →
  run ainvoke (retell_webhook SP (JObj m)) g
  = (g, [Logged fmt_received [call_id_of m; event_of m]],
     inl (AttributeError "get")).
Proof.
  intros Hev Htr Hx Hpost. rewrite retell_webhook_active by done.
  rewrite (transcript_of_present m _ Htr). unfold active_turn, extract_user_text.
  cbn [reversed]. rewrite bind_Return, rev_app_distr. cbn [rev].
  rewrite <- app_assoc, scan_user_text_skip by (by apply Forall_rev).
  cbn [app]. rewrite scan_user_text_not_dict by done. reflexivity.
Qed.

Lemma non_dict_turn_raises_witness :
  run counting_engine (retell_webhook example_prompt (JObj stray_fields)) 0
  = (0, [Logged fmt_received [JStr "abc"; JStr "call_started"]],
     inl (AttributeError "get")).
Proof.
  apply (non_dict_turn_raises example_prompt stray_fields
           [turn_of "user" "Quiero una cita"] (JStr "noise")
           [turn_of "agent" "Claro"] nat counting_engine 0).
  - not_terminal.
  - reflexivity.
  - intros d. discriminate.
  - other_turns.
Defined.

(** X6: the greeting replaces every falsy content of the last user turn,
    not only the empty string: [null], [false], zero, an empty list or an
    empty dict all make the engine receive ["Hola"]. *)
Theorem falsy_content_greets SP (m : gmap string json) pre d post c :
  ¬ terminal_event (event_of m) →
  m !! "transcript" = Some (JList (pre ++ JObj d :: post)) →
  d !! "role" = Some (JStr "user") →
  Forall other_turn post →
  d !! "content" = Some c →
  truthy c = false →
  ∀ G (ainvoke : G → state → config → G * (exception + state)) (g : G),
    engine_calls ainvoke (retell_webhook SP (JObj m)) g
    = [(input_state_for SP (call_id_of m) (JStr "Hola"),
        config_for (call_id_of m))].
Proof.
  intros Hev Htr Hrole Hpost Hcontent Hc G ainvoke g.
  apply engine_calls_invokes; [done| |reflexivity].
  rewrite (transcript_of_present m _ Htr), extract_last_user by done.
  rewrite Hcontent. cbn [from_option id]. by rewrite Hc.
Qed.

Lemma falsy_content_greets_witness :
  engine_calls counting_engine
    (retell_webhook example_prompt (JObj null_content_fields)) 0
  = [(input_state_for example_prompt (JStr "abc") (JStr "Hola"),
      config_for (JStr "abc"))].
Proof.
  apply (falsy_content_greets example_prompt null_content_fields
           [turn_of "user" "Quiero una cita"]
           {[ "role" := JStr "user"; "content" := JNull ]} [] JNull).
  - not_terminal.
  - reflexivity.
  - reflexivity.
  - constructor.
  - reflexivity.
  - reflexivity.
Defined.

Lemma scan_user_text_cut xs d ys ys' :
  d !! "role" = Some (JStr "user") →
  scan_user_text (xs ++ JObj d :: ys) = scan_user_text (xs ++ JObj d :: ys').
Proof.
  intros Hrole. induction xs as [|x xs IH].
  - cbn [app]. by rewrite !scan_user_text_hit.
  - rewrite <- !app_comm_cons. cbn [scan_user_text].
    destruct (pure_cases _ (py_get_pure x "role" JNull)) as [[role ->]|[e ->]];
      [|reflexivity].
    rewrite !bind_Return. by destruct (eq_str role "user").
Qed.

(** X7: nothing that precedes a user turn in the transcript has any
    influence: two requests whose transcripts agree from some user turn
    onwards are handled by the same computation. *)
Theorem earlier_turns_irrelevant SP (m : gmap string json) pre1 pre2 d post :
  d !! "role" = Some (JStr "user") →
  retell_webhook SP (JObj (<["transcript" := JList (pre1 ++ JObj d :: post)]> m))
  = retell_webhook SP (JObj (<["transcript" := JList (pre2 ++ JObj d :: post)]> m)).
Proof.
  intros Hrole. rewrite !retell_webhook_fields.
  unfold call_id_of, event_of, transcript_of.
  rewrite !lookup_insert_eq, !lookup_insert_ne by done. cbn [from_option id].
  unfold active_turn, extract_user_text. cbn [reversed]. rewrite !bind_Return.
  rewrite !rev_app_distr. cbn [rev]. rewrite <- !app_assoc. cbn [app].
  by rewrite (scan_user_text_cut (rev post) d (rev pre1) (rev pre2)).
Qed.

Lemma earlier_turns_irrelevant_witness :
  retell_webhook example_prompt
    (JObj (<["transcript" := JList ([JInt 7; turn_of "agent" "Hola"]
                                    ++ JObj {[ "role" := JStr "user";
                                               "content" := JStr "Quiero una cita" ]}
                                    :: [turn_of "agent" "Claro"])]> started_fields))
  = retell_webhook example_prompt
      (JObj (<["transcript" := JList ([]
                                      ++ JObj {[ "role" := JStr "user";
                                                 "content" := JStr "Quiero una cita" ]}
                                      :: [turn_of "agent" "Claro"])]> started_fields)).
Proof.
  apply (earlier_turns_irrelevant example_prompt started_fields). reflexivity.
Defined.

(** ** Engine invocations *)

Lemma extract_user_text_truthy transcript text :
  extract_user_text transcript = Return text → truthy text = true.
Proof.
  unfold extract_user_text.
  destruct (pure_cases _ (reversed_pure transcript)) as [[turns ->]|[e ->]];
    [|discriminate].
  rewrite bind_Return.
  destruct (pure_cases _ (scan_user_text_pure turns)) as [[u ->]|[e ->]];
    [|discriminate].
  rewrite bind_Return. intros [= <-].
  destruct (truthy u) eqn:Hu; [exact Hu | reflexivity].
Qed.

Section Invocations.

Context {G : Type}.
Variable ainvoke : G → state → config → G * (exception + state).

(** The engine invocations of any request: none, or the single one of the
    active path with the extracted text. *)
Lemma engine_calls_cases SP body g :
  engine_calls ainvoke (retell_webhook SP body) g = []
  ∨ ∃ m text,
      body = JObj m
      ∧ ¬ terminal_event (event_of m)
      ∧ extract_user_text (transcript_of m) = Return text
      ∧ engine_calls ainvoke (retell_webhook SP body) g
        = [(input_state_for SP (call_id_of m) text, config_for (call_id_of m))].
Proof.
  destruct body as [| | | | | |m]; try (by left).
  destruct (terminal_event_dec (event_of m)) as [Hev|Hev].
  - left. unfold engine_calls.
    by destruct (run_lifecycle ainvoke SP m g Hev) as [out ->].
  - destruct (pure_cases _ (extract_user_text_pure (transcript_of m)))
      as [[text Htext]|[e He]].
    + destruct (message_content text) eqn:Hvalid.
      * right. exists m, text. do 3 (split; [done|]).
        by apply engine_calls_invokes.
      * left. unfold engine_calls. rewrite retell_webhook_active by done.
        unfold active_turn, HumanMessage.
        by rewrite Htext, bind_Return, Hvalid.
    + left. unfold engine_calls. rewrite retell_webhook_active by done.
      unfold active_turn. by rewrite He.
Qed.

End Invocations.

(** X8: whatever the body and whatever the engine does, one request
    invokes the engine at most once: there is no retry and no second
    call. *)
Theorem at_most_one_invocation SP body
    G (ainvoke : G → state → config → G * (exception + state)) g :
  length (engine_calls ainvoke (retell_webhook SP body) g) ≤ 1.
Proof.
  destruct (engine_calls_cases ainvoke SP body g)
    as [->|(m & text & _ & _ & _ & ->)]; cbn [length]; lia.
Qed.

(** X9: every engine invocation is made on a non-terminal event, uses the
    parsed call identifier both as [thread_id] of the config and as
    [call_id] of the input state, and carries exactly two messages: the
    system prompt and a human message whose content is truthy, so never
    the empty string. *)
Theorem invocation_keyed_by_call_id SP (m : gmap string json)
    G (ainvoke : G → state → config → G * (exception + state)) g input cfg :
  (input, cfg) ∈ engine_calls ainvoke (retell_webhook SP (JObj m)) g →
  ¬ terminal_event (event_of m)
  ∧ thread_id cfg = call_id_of m
  ∧ call_id input = Some (call_id_of m)
  ∧ ∃ text, messages input = Some [SP; human_message text]
            ∧ truthy text = true.
Proof.
  intros Hin.
  destruct (engine_calls_cases ainvoke SP (JObj m) g)
    as [Hnone|(m' & text & [= <-] & Hev & Htext & Hone)].
  - rewrite Hnone in Hin. by apply elem_of_nil in Hin.
  - rewrite Hone in Hin. apply list_elem_of_singleton in Hin as [= -> ->].
    do 3 (split; [done|]). exists text. split; [reflexivity|].
    by apply (extract_user_text_truthy (transcript_of m)).
Qed.

Lemma invocation_keyed_by_call_id_witness :
  thread_id (config_for (JStr "abc")) = JStr "abc"
  ∧ call_id (input_state_for example_prompt (JStr "abc") (JStr "Quiero una cita"))
    = Some (JStr "abc").
Proof.
  destruct (invocation_keyed_by_call_id example_prompt booking_fields
              nat counting_engine 0
              (input_state_for example_prompt (JStr "abc") (JStr "Quiero una cita"))
              (config_for (JStr "abc")))
    as (_ & Hthread & Hid & _).
  - vm_compute. by left.
  - split; [exact Hthread | exact Hid].
Defined.

(** X10: a failure of the engine is not handled: when [ainvoke] raises,
    the handler raises the same exception right after the invocation,
    without a reply log line and without a response. *)
Theorem engine_failure_propagates SP (m : gmap string json) :
  ¬ terminal_event (event_of m) →
  text_transcript (transcript_of m) →
  ∃ text,
    ∀ G (ainvoke : G → state → config → G * (exception + state)) g g' e,
      ainvoke g (input_state_for SP (call_id_of m) (JStr text))
                (config_for (call_id_of m)) = (g', inl e) →
      run ainvoke (retell_webhook SP (JObj m)) g
      = (g',
         [Logged fmt_received [call_id_of m; event_of m];
          Invoked (input_state_for SP (call_id_of m) (JStr text))
                  (config_for (call_id_of m))],
         inl e).
Proof.
  intros Hev Htr. destruct (extract_text_transcript _ Htr) as [text Htext].
  exists text. intros G ainvoke g g' e Hcall.
  rewrite (retell_webhook_invokes SP m (JStr text)) by done.
  cbn [run]. by rewrite Hcall.
Qed.

Lemma engine_failure_propagates_witness :
  ∃ text,
    run failing_engine (retell_webhook example_prompt (JObj booking_fields)) 0
    = (1,
       [Logged fmt_received [JStr "abc"; JStr "call_started"];
        Invoked (input_state_for example_prompt (JStr "abc") (JStr text))
                (config_for (JStr "abc"))],
       inl (EngineError "graph execution failed")).
Proof.
  destruct (engine_failure_propagates example_prompt booking_fields)
    as [text Hrun].
  - not_terminal.
  - eexists. split; [reflexivity|].
    repeat (constructor; [eexists; split; [reflexivity | right; by eexists] |]).
    constructor.
  - exists text.
    apply (Hrun nat failing_engine 0 1 (EngineError "graph execution failed")).
    reflexivity.
Defined.

(** ** The reply *)

Lemma code_points_utf8_take n s :
  code_points (utf8_take n s) = Nat.min n (code_points s).
Proof.
  revert n. induction s as [|c rest IH]; intros n; [by destruct n|].
  cbn [utf8_take code_points]. destruct (continuation_byte c) eqn:Hc.
  - cbn [code_points]. by rewrite Hc, IH.
  - destruct n as [|n]; [reflexivity|].
    cbn [code_points]. by rewrite Hc, IH.
Qed.

Lemma utf8_take_prefix n s : String.prefix (utf8_take n s) s = true.
Proof.
  revert n. induction s as [|c rest IH]; intros n; [reflexivity|].
  cbn [utf8_take]. destruct (continuation_byte c).
  - cbn [String.prefix]. destruct (Ascii.ascii_dec c c); [apply IH | done].
  - destruct n as [|n]; [reflexivity|].
    cbn [String.prefix]. destruct (Ascii.ascii_dec c c); [apply IH | done].
Qed.

Lemma utf8_take_all n s : code_points s ≤ n → utf8_take n s = s.
Proof.
  revert n. induction s as [|c rest IH]; intros n; [reflexivity|].
  cbn [utf8_take code_points]. destruct (continuation_byte c).
  - intros Hlen. by rewrite IH.
  - destruct n as [|n]; [lia|]. intros Hlen. rewrite IH; [done | lia].
Qed.

(** X11: only the log line is truncated.  For a textual reply the reply
    log shows its first 80 characters (code points; the whole reply when
    it has no more than that), while the response, built for a call
    identifier that can be rendered as JSON, carries the reply in full. *)
Theorem reply_truncated_in_log_only cid result s :
  last_ai_content (default [] (messages result)) (JStr s) →
  json_compliant cid = true →
  respond cid result
  = LogInfo fmt_responding [cid; JStr (utf8_take 80 s)]
      (Return (Response (turn_response cid (JStr s))))
  ∧ body_of (Response (turn_response cid (JStr s))) !! "content"
    = Some (JStr s)
  ∧ code_points (utf8_take 80 s) = Nat.min 80 (code_points s)
  ∧ String.prefix (utf8_take 80 s) s = true
  ∧ (code_points s ≤ 80 → utf8_take 80 s = s).
Proof.
  intros Hlast Hcid. split.
  - destruct (respond_reply cid result (JStr s) Hlast) as (shown & Hs & ->);
      [left; by eexists | done | reflexivity |].
    by injection Hs as <-.
  - split; [reflexivity|].
    split; [apply code_points_utf8_take|].
    split; [apply utf8_take_prefix | apply utf8_take_all].
Qed.

Lemma reply_truncated_in_log_only_witness :
  respond (JStr "abc") long_reply_result
  = LogInfo fmt_responding [JStr "abc"; JStr (utf8_take 80 long_reply)]
      (Return (Response (turn_response (JStr "abc") (JStr long_reply))))
  ∧ code_points (utf8_take 80 long_reply) = 80
  ∧ String.length (utf8_take 80 long_reply) = 83
  ∧ code_points long_reply = 99.
Proof.
  destruct (reply_truncated_in_log_only (JStr "abc") long_reply_result long_reply)
    as (Hrespond & _ & Hlen & _).
  - left. exists [example_prompt], (ai_message long_reply), [].
    do 3 (split; [reflexivity|]). constructor.
  - reflexivity.
  - split; [exact Hrespond|]. split; [exact Hlen|]. split; reflexivity.
Defined.

(** X12: a reply whose content is [None], a boolean or a number cannot be
    sliced for the log: the handler raises [TypeError] once the engine has
    answered, and returns no response. *)
Theorem unsliceable_reply_raises cid result c :
  last_ai_content (default [] (messages result)) c →
  scalar c →
  ∃ what, respond cid result = Raise (TypeError what).
Proof.
  intros Hlast Hc. unfold respond.
  rewrite (scan_agent_reply_last _ _ Hlast), bind_Return.
  destruct Hc as [->|[[b ->]|[[n ->]|[x ->]]]]; eexists; reflexivity.
Qed.

Lemma unsliceable_reply_raises_witness :
  ∃ what, respond (JStr "abc") null_reply_result = Raise (TypeError what).
Proof.
  apply (unsliceable_reply_raises (JStr "abc") null_reply_result JNull).
  - left. exists [example_prompt], {| content := Some JNull; type := Some "ai" |}, [].
    do 3 (split; [reflexivity|]). constructor.
  - by left.
Defined.

(** X13: no response ever asks the platform to end the call or marks its
    content as incomplete: [end_call] is absent or [false], and
    [content_complete] is absent or [true]. *)
Theorem never_ends_call SP body
    G (ainvoke : G → state → config → G * (exception + state)) g g' evs resp :
  run ainvoke (retell_webhook SP body) g = (g', evs, inr resp) →
  (body_of resp !! "end_call" = None
   ∧ body_of resp !! "content_complete" = None)
  ∨ (body_of resp !! "end_call" = Some (JBool false)
     ∧ body_of resp !! "content_complete" = Some (JBool true)).
Proof.
  intros Hrun. destruct body as [| | | | | |m]; try discriminate Hrun.
  destruct (terminal_event_dec (event_of m)) as [Hev|Hev].
  - rewrite (run_terminal_inv ainvoke SP m g g' evs resp Hev Hrun).
    left. split; reflexivity.
  - destruct (run_response_inv ainvoke SP m g g' evs resp Hev Hrun)
      as (text & result & reply & shown & _ & _ & _ & _ & _ & ->).
    right. split; reflexivity.
Qed.

Lemma never_ends_call_witness :
  (body_of (Response (lifecycle_response (JStr "abc"))) !! "end_call" = None
   ∧ body_of (Response (lifecycle_response (JStr "abc")))
       !! "content_complete" = None)
  ∨ (body_of (Response (lifecycle_response (JStr "abc"))) !! "end_call"
     = Some (JBool false)
     ∧ body_of (Response (lifecycle_response (JStr "abc")))
         !! "content_complete" = Some (JBool true)).
Proof.
  apply (never_ends_call example_prompt (JObj ended_fields) nat counting_engine
           0 0 [Logged fmt_received [JStr "abc"; JStr "call_ended"]]
           (Response (lifecycle_response (JStr "abc")))).
  reflexivity.
Defined.

(** ** Values the library constructors reject *)

(** X14: a call identifier that cannot be rendered as JSON, a NaN or an
    infinity (as [1e400] decodes to), or a list or dict holding one, makes
    the response of a lifecycle event fail to build: the handler raises
    [ValueError] after the receipt log, and the engine is not invoked. *)
Theorem unrenderable_call_id_raises SP (m : gmap string json)
    G (ainvoke : G → state → config → G * (exception + state)) g :
  terminal_event (event_of m) →
  json_compliant (call_id_of m) = false →
  ∃ what,
    run ainvoke (retell_webhook SP (JObj m)) g
    = (g, [Logged fmt_received [call_id_of m; event_of m]],
       inl (ValueError what)).
Proof.
  intros Hev Hid. rewrite retell_webhook_lifecycle by done.
  unfold JSONResponse. rewrite lifecycle_response_compliant, Hid.
  eexists. reflexivity.
Qed.

Lemma unrenderable_call_id_raises_witness :
  ∃ what,
    run counting_engine (retell_webhook example_prompt (JObj overflow_fields)) 0
    = (0, [Logged fmt_received [JFloat PrimFloat.infinity; JStr "call_ended"]],
       inl (ValueError what)).
Proof.
  apply (unrenderable_call_id_raises example_prompt overflow_fields
           nat counting_engine 0).
  - by left.
  - reflexivity.
Defined.

(** X15: on a non-terminal event, a last user turn whose content is a
    truthy boolean or number is passed as it is to [HumanMessage], which
    rejects it: the handler raises a validation error after the receipt
    log, and the engine is not invoked. *)
Theorem unvalidated_content_raises SP (m : gmap string json) pre d post c
    G (ainvoke : G → state → config → G * (exception + state)) g :
  ¬ terminal_event (event_of m) →
  m !! "transcript" = Some (JList (pre ++ JObj d :: post)) →
  d !! "role" = Some (JStr "user") →
  Forall other_turn post →
  d !! "content" = Some c →
  scalar c →
  truthy c = true →
  ∃ what,
    run ainvoke (retell_webhook SP (JObj m)) g
    = (g, [Logged fmt_received [call_id_of m; event_of m]],
       inl (ValidationError what)).
Proof.
  intros Hev Htr Hrole Hpost Hcontent Hc Htruthy.
  rewrite retell_webhook_active by done.
  rewrite (transcript_of_present m _ Htr). unfold active_turn.
  rewrite extract_last_user by done.
  rewrite Hcontent. cbn [from_option id]. rewrite Htruthy, bind_Return.
  destruct Hc as [->|[[b ->]|[[n ->]|[x ->]]]]; eexists; reflexivity.
Qed.

Lemma unvalidated_content_raises_witness :
  ∃ what,
    run counting_engine
      (retell_webhook example_prompt (JObj numeric_content_fields)) 0
    = (0, [Logged fmt_received [JStr "abc"; JStr "call_started"]],
       inl (ValidationError what)).
Proof.
  apply (unvalidated_content_raises example_prompt numeric_content_fields
           [] {[ "role" := JStr "user"; "content" := JInt 5 ]} [] (JInt 5)
           nat counting_engine 0).
  - not_terminal.
  - reflexivity.
  - reflexivity.
  - constructor.
  - reflexivity.
  - right. right. left. by eexists.
  - reflexivity.
Defined.
